(** * upload_layer.py: publishing a zip archive as a Lambda layer version

    A shallow embedding of [src/upload_layer.py].  The script is sequential
    Python that prints, reads one file, and calls the cloud SDK once; it is
    modelled in a state-and-exception monad over a [World] holding the file
    system, the SDK's state, the two output streams and a trace of the
    operations that touch a file handle or the SDK. *)

From Stdlib Require Import DecimalString.
From stdpp Require Import gmap strings list.

Local Open Scope string_scope.
Local Open Scope N_scope.

(** ** Python values used by the script *)

(** The exceptions the script can meet.  All of them derive from Python's
    [Exception], which is what [main] catches.  [FileNotFoundError],
    [IsADirectoryError] and [PermissionError] are the built-in [OSError]
    subclasses, [OSError] itself is raised for the error numbers that have no
    subclass of their own; [SdkError] stands for whatever boto3/botocore
    raises.  The string is what [str(e)] returns. *)
Inductive exn : Type :=
| FileNotFoundError (msg : string)
| IsADirectoryError (msg : string)
| PermissionError (msg : string)
| OSError (msg : string)
| SdkError (msg : string).

Definition exn_str (e : exn) : string :=
  match e with
  | FileNotFoundError m | IsADirectoryError m | PermissionError m
  | OSError m | SdkError m => m
  end.

(** What a path can name on disk.  [stat] succeeds on every kind.
    [open(..., 'rb')] needs read permission; it is refused on a directory
    and on a socket.  A character device or a FIFO is opened like a regular
    file and [read()] returns the bytes it delivers up to end of file (none
    for [/dev/null]); its [st_size] is whatever [stat] reports, usually 0.
    Devices that never reach end of file are left out. *)
Inductive node : Type :=
| Regular (content : list Byte.byte) (readable : bool)
| Directory (dir_size : N) (readable : bool)
| Device (dev_size : N) (stream : list Byte.byte) (readable : bool)
| Socket (sock_size : N).

Definition st_size (n : node) : N :=
  match n with
  | Regular content _ => N.of_nat (length content)
  | Directory sz _ => sz
  | Device sz _ _ => sz
  | Socket sz => sz
  end.

(** The bytes that opening and reading a node gives, when both succeed. *)
Definition readable_bytes (n : node) : option (list Byte.byte) :=
  match n with
  | Regular content true => Some content
  | Device _ stream true => Some stream
  | _ => None
  end.

(** Why [stat] can fail on a path that names no node, other than by there
    being no such file: a directory on the way may not be searched
    ([EACCES]), or the name is too long ([ENAMETOOLONG]). *)
Inductive stat_refusal : Type :=
| SearchDenied
| NameTooLong.

(** The keyword arguments of [publish_layer_version].  The dict is built
    without ['Description'] and the key is stored afterwards, hence the
    option. *)
Record PublishParams : Type := mkParams {
  LayerName : string;
  ZipFile : list Byte.byte;
  CompatibleRuntimes : list string;
  CompatibleArchitectures : list string;
  Description : option string
}.

Definition set_Description (d : string) (p : PublishParams) : PublishParams :=
  {| LayerName := LayerName p; ZipFile := ZipFile p;
     CompatibleRuntimes := CompatibleRuntimes p;
     CompatibleArchitectures := CompatibleArchitectures p;
     Description := Some d |}.

(** The three keys of the response that the script reads. *)
Record Response : Type := mkResponse {
  LayerArn : string;
  Version : Z;
  LayerVersionArn : string
}.

(** A client object: [boto3.client('lambda', region_name=region)]. *)
Record Client : Type := mkClient { client_region : string }.

(** The SDK, taken as an interface: building a client and publishing may each
    return or raise, and may change the SDK's own state [R] (a fake that
    numbers versions, for instance).  A failure is given by its message and
    surfaces in the script as [SdkError]. *)
Class LambdaSdk (R : Type) : Type := {
  sdk_client : string -> R -> (string + Client) * R;
  sdk_publish_layer_version : Client -> PublishParams -> R -> (string + Response) * R
}.

Definition from_sdk {A} (r : string + A) : exn + A :=
  match r with
  | inl msg => inl (SdkError msg)
  | inr a => inr a
  end.

(** Operations recorded in the trace. *)
Inductive event : Type :=
| EvClient (region : string)
| EvOpen (path : string)
| EvRead (path : string) (nbytes : nat)
| EvClose (path : string)
| EvPublish (c : Client) (p : PublishParams).

Record World (R : Type) : Type := mkWorld {
  fs : gmap string node;
  remote : R;
  stdout : string;
  stderr : string;
  trace : list event
}.
Arguments mkWorld {R}.
Arguments fs {R}.
Arguments remote {R}.
Arguments stdout {R}.
Arguments stderr {R}.
Arguments trace {R}.

(** ** Number formatting *)

(** [str(n)] for a Python int. *)
Definition str_N (n : N) : string := NilZero.string_of_uint (N.to_uint n).
Definition str_Z (z : Z) : string := NilZero.string_of_int (Z.to_int z).

Definition digit_char (d : N) : string :=
  String (Ascii.ascii_of_N (48 + d mod 10)) EmptyString.

(** A non-negative binary floating-point value [m * 2^e]. *)
Record float : Type := mkFloat { mant : N; expo : Z }.

(** Round-half-to-even of [num / den] to an integer. *)
Definition round_half_even (num den : N) : N :=
  let q := num / den in
  let r := num mod den in
  if (den <? 2 * r) || ((den =? 2 * r) && N.odd q) then q + 1 else q.

(** [n / 2**k] for Python ints: the IEEE double nearest to the quotient.
    Up to 53 significant bits the quotient is representable as it is;
    beyond, the dividend is rounded to 53 bits, ties to even.  ([st_size]
    is below [2^63], so the result never overflows.) *)
Definition truediv_pow2 (n k : N) : float :=
  if n <? 2 ^ 53 then mkFloat n (- Z.of_N k)
  else
    let s := N.size n - 53 in
    mkFloat (round_half_even n (2 ^ s)) (Z.of_N s - Z.of_N k).

(** The value of [x] in hundredths, rounded half to even: the digits that
    [format(x, '.2f')] prints. *)
Definition hundredths (x : float) : N :=
  match expo x with
  | Zneg p => round_half_even (100 * mant x) (2 ^ Npos p)
  | Z0 => 100 * mant x
  | Zpos p => 100 * mant x * 2 ^ Npos p
  end.

(** [f"{x:.2f}"]. *)
Definition format_2f (x : float) : string :=
  let h := hundredths x in
  str_N (h / 100) ++ "." ++ digit_char (h / 10) ++ digit_char h.

(** The divisor [(1024*1024)] of line 63 is [2^20]. *)
Definition megabytes (size : N) : float := truediv_pow2 size 20.

Definition file_size_line (size : N) : string :=
  "File size: " ++ format_2f (megabytes size) ++ " MB".

(** ** A test double for the SDK

    It numbers the versions it publishes, refuses region names that hold a
    space when a client is built, and refuses an empty layer name when
    publishing.  Its state is the last version number handed out. *)
Module Fake.

Fixpoint has_space (s : string) : bool :=
  match s with
  | EmptyString => false
  | String a s' => Ascii.eqb a (Ascii.ascii_of_N 32) || has_space s'
  end.

Definition layer_arn (c : Client) (name : string) : string :=
  "arn:aws:lambda:" ++ client_region c ++ ":123456789012:layer:" ++ name.

Definition client (region : string) (last : Z) : (string + Client) * Z :=
  if has_space region then
    (inl ("Provided region_name '" ++ region ++ "' doesn't match a supported format."), last)
  else (inr (mkClient region), last).

Definition publish (c : Client) (p : PublishParams) (last : Z)
    : (string + Response) * Z :=
  if String.eqb (LayerName p) "" then
    (inl "An error occurred (ValidationException) when calling the PublishLayerVersion operation",
     last)
  else
    let v := (last + 1)%Z in
    (inr {| LayerArn := layer_arn c (LayerName p);
            Version := v;
            LayerVersionArn := layer_arn c (LayerName p) ++ ":" ++ str_Z v |}, v).

#[global] Instance sdk : LambdaSdk Z :=
  {| sdk_client := client; sdk_publish_layer_version := publish |}.

(** Path strings already in pathlib's normal form render as themselves. *)
Definition path (s : string) : string := s.

(** Nothing below the directory [vault] can be looked up. *)
Definition refused (p : string) : option stat_refusal :=
  if String.prefix "vault/" p then Some SearchDenied else None.

(** [repr] of a string free of quotes, backslashes and control characters. *)
Definition quoted (s : string) : string := "'" ++ s ++ "'".

(** A disk with a small archive, an unreadable one, a directory, the null
    device and a socket. *)
Definition zip_bytes : list Byte.byte :=
  [Byte.x50; Byte.x4b; Byte.x05; Byte.x06].

Definition disk : gmap string node :=
  <["layer.zip" := Regular zip_bytes true]>
    (<["secret.zip" := Regular zip_bytes false]>
       (<["build" := Directory 4096 true]>
          (<["/dev/null" := Device 0 [] true]>
             (<["/run/agent.sock" := Socket 0]> ∅)))).

End Fake.

(** ** The state-and-exception monad *)

Section Script.

Context {R : Type} `{Sdk : LambdaSdk R}.

(** [str(Path(s))]: pathlib's rendering of the path object built from the
    string [s] (it drops redundant separators and [.] components), which is
    also what the path object hands to the operating system. *)
Variable Path : string -> string.

(** [repr(s)] of a Python string, as it appears in [OSError] messages. *)
Variable repr : string -> string.

(** The paths on which [stat] fails for another reason than the path naming
    nothing.  A path that names a node is looked up without trouble. *)
Variable stat_refused : string -> option stat_refusal.

Definition M (A : Type) : Type := World R -> (exn + A) * World R.

Definition ret {A} (a : A) : M A := fun w => (inr a, w).

Definition raise {A} (e : exn) : M A := fun w => (inl e, w).

Definition bind {A B} (m : M A) (k : A -> M B) : M B :=
  fun w =>
    match m w with
    | (inr a, w') => k a w'
    | (inl e, w') => (inl e, w')
    end.

Notation "x <- m ;; k" := (bind m (fun x => k))
  (at level 100, m at next level, k at level 200, right associativity, only parsing).
Notation "m ;; k" := (bind m (fun _ => k))
  (at level 100, k at level 200, right associativity, only parsing).

(** [try: body finally: cleanup], the control flow of a [with] block. *)
Definition finally {A} (body : M A) (cleanup : M unit) : M A :=
  fun w =>
    match body w with
    | (r, w') =>
        match cleanup w' with
        | (inr _, w'') => (r, w'')
        | (inl e, w'') => (inl e, w'')
        end
    end.

Definition log (ev : event) : M unit :=
  fun w => (inr tt, mkWorld (fs w) (remote w) (stdout w) (stderr w) (trace w ++ [ev])).

Definition newline : string := String (Ascii.ascii_of_N 10) EmptyString.

(** [print(s)] and [print(s, file=sys.stderr)]: the text and a line feed. *)
Definition print (s : string) : M unit :=
  fun w => (inr tt, mkWorld (fs w) (remote w) (stdout w ++ s ++ newline) (stderr w) (trace w)).

Definition eprint (s : string) : M unit :=
  fun w => (inr tt, mkWorld (fs w) (remote w) (stdout w) (stderr w ++ s ++ newline) (trace w)).

(** ** File-system primitives *)

Definition errno_msg (code : string) (what : string) (p : string) : string :=
  "[Errno " ++ code ++ "] " ++ what ++ ": " ++ repr p.

Definition ENOENT (p : string) : exn :=
  FileNotFoundError (errno_msg "2" "No such file or directory" p).
Definition EACCES (p : string) : exn :=
  PermissionError (errno_msg "13" "Permission denied" p).
Definition EISDIR (p : string) : exn :=
  IsADirectoryError (errno_msg "21" "Is a directory" p).
Definition ENXIO (p : string) : exn :=
  OSError (errno_msg "6" "No such device or address" p).
Definition ENAMETOOLONG (p : string) : exn :=
  OSError (errno_msg "36" "File name too long" p).

Definition refusal_exn (why : stat_refusal) (p : string) : exn :=
  match why with
  | SearchDenied => EACCES p
  | NameTooLong => ENAMETOOLONG p
  end.

(** [p.exists()]: [stat] is tried; "no such file" (and the like: not a
    directory, too many links) is answered by [False], every other [OSError]
    is raised again (pathlib up to Python 3.13). *)
Definition path_exists (p : string) : M bool :=
  fun w =>
    match fs w !! p with
    | Some _ => (inr true, w)
    | None =>
        match stat_refused p with
        | Some why => (inl (refusal_exn why p), w)
        | None => (inr false, w)
        end
    end.

(** [p.stat().st_size] *)
Definition stat_st_size (p : string) : M N :=
  fun w =>
    match fs w !! p with
    | Some n => (inr (st_size n), w)
    | None => (inl (ENOENT p), w)
    end.

(** The error with which [open(p, 'rb')] is refused on a node, if it is. *)
Definition open_refusal (p : string) (n : node) : option exn :=
  match n with
  | Regular _ true | Device _ _ true => None
  | Regular _ false | Directory _ false | Device _ _ false => Some (EACCES p)
  | Directory _ true => Some (EISDIR p)
  | Socket _ => Some (ENXIO p)
  end.

(** [open(p, 'rb')]: the handle is the path it was opened on. *)
Definition open_rb (p : string) : M string :=
  fun w =>
    match fs w !! p with
    | Some n =>
        match open_refusal p n with
        | Some e => (inl e, w)
        | None => (log (EvOpen p) ;; ret p) w
        end
    | None => (inl (ENOENT p), w)
    end.

(** [f.read()]: everything up to end of file, in one call. *)
Definition read (f : string) : M (list Byte.byte) :=
  fun w =>
    match fs w !! f with
    | Some (Regular content _) | Some (Device _ content _) =>
        (log (EvRead f (length content)) ;; ret content) w
    | _ => (inl (EISDIR f), w)
    end.

Definition close (f : string) : M unit := log (EvClose f).

(** [with open(p, 'rb') as f: body f] *)
Definition with_open_rb {A} (p : string) (body : string -> M A) : M A :=
  f <- open_rb p ;;
  finally (body f) (close f).

(** ** SDK calls *)

(** [boto3.client('lambda', region_name=region)] *)
Definition boto3_client (region : string) : M Client :=
  fun w =>
    match sdk_client region (remote w) with
    | (r, rem') =>
        (from_sdk r,
         mkWorld (fs w) rem' (stdout w) (stderr w) (trace w ++ [EvClient region]))
    end.

(** [client.publish_layer_version] applied to the keyword dict. *)
Definition publish_layer_version (c : Client) (params : PublishParams) : M Response :=
  fun w =>
    match sdk_publish_layer_version c params (remote w) with
    | (r, rem') =>
        (from_sdk r,
         mkWorld (fs w) rem' (stdout w) (stderr w) (trace w ++ [EvPublish c params]))
    end.

(** ** The script *)

(** Truth value of [description] in [if description:]: [None] and the empty
    string are false. *)
Definition truthy (d : option string) : bool :=
  match d with
  | Some (String _ _) => true
  | _ => false
  end.

Definition upload_lambda_layer (zip_file_path layer_name region : string)
    (description : option string) : M Response :=
  lambda_client <- boto3_client region ;;
  let zip_path := Path zip_file_path in
  found <- path_exists zip_path ;;
  if negb found then
    raise (FileNotFoundError ("Zip file not found: " ++ zip_file_path))
  else
    print ("Reading zip file: " ++ zip_path) ;;
    size <- stat_st_size zip_path ;;
    print (file_size_line size) ;;
    zip_content <- with_open_rb zip_path read ;;
    let publish_params :=
      {| LayerName := layer_name;
         ZipFile := zip_content;
         CompatibleRuntimes := ["python3.14"; "python3.13"; "python3.12"];
         CompatibleArchitectures := ["arm64"];
         Description := None |} in
    let publish_params :=
      if truthy description then
        set_Description (default "" description) publish_params
      else
        set_Description ("Lambda layer for " ++ layer_name) publish_params in
    print (newline ++ "Uploading layer '" ++ layer_name ++ "' to region '" ++ region ++ "'...") ;;
    response <- publish_layer_version lambda_client publish_params ;;
    print (newline ++ "✓ Layer uploaded successfully!") ;;
    print ("Layer ARN: " ++ LayerArn response) ;;
    print ("Version: " ++ str_Z (Version response)) ;;
    print ("Version ARN: " ++ LayerVersionArn response) ;;
    ret response.

(** The namespace returned by [parser.parse_args()]. *)
Record Args : Type := mkArgs {
  zip_file : string;
  layer_name : string;
  region : string;
  description : option string
}.

(** [main] after argument parsing; the result is the process exit code
    ([sys.exit(1)] in the handler, 0 when the interpreter falls off the end). *)
Definition main (args : Args) : World R -> Z * World R :=
  fun w =>
    match upload_lambda_layer (zip_file args) (layer_name args) (region args)
            (description args) w with
    | (inr _, w') => (0%Z, w')
    | (inl e, w') =>
        match eprint ("Error: " ++ exn_str e) w' with
        | (_, w'') => (1%Z, w'')
        end
    end.

(** A fresh process: nothing printed, nothing done yet. *)
Definition start (files : gmap string node) (r : R) : World R :=
  mkWorld files r "" "" [].

Definition run (args : Args) (files : gmap string node) (r : R) : Z * World R :=
  main args (start files r).

(** The publish requests that were issued, in order. *)
Definition publish_calls (tr : list event) : list (Client * PublishParams) :=
  omap (fun ev => match ev with EvPublish c p => Some (c, p) | _ => None end) tr.

(** Handles open after a trace. *)
Fixpoint open_handles (tr : list event) (acc : list string) : list string :=
  match tr with
  | [] => acc
  | EvOpen p :: tr' => open_handles tr' (p :: acc)
  | EvClose p :: tr' => open_handles tr' (filter (fun q => q ≠ p) acc)
  | _ :: tr' => open_handles tr' acc
  end.

(** The paths that were opened, in order. *)
Definition opened (tr : list event) : list string :=
  omap (fun ev => match ev with EvOpen p => Some p | _ => None end) tr.

(** ** How a call of [upload_lambda_layer] unfolds *)

Definition default_description (name : string) : string :=
  "Lambda layer for " ++ name.

(** The request the script builds from its arguments and the bytes read. *)
Definition request_of (name : string) (description : option string)
    (content : list Byte.byte) : PublishParams :=
  {| LayerName := name;
     ZipFile := content;
     CompatibleRuntimes := ["python3.14"; "python3.13"; "python3.12"];
     CompatibleArchitectures := ["arm64"];
     Description :=
       Some (if truthy description then default "" description
             else default_description name) |}.

(** Standard output up to the existence check's two lines. *)
Definition preamble (p : string) (size : N) : string :=
  "Reading zip file: " ++ p ++ newline ++ file_size_line size ++ newline.

Definition uploading_line (name region : string) : string :=
  newline ++ "Uploading layer '" ++ name ++ "' to region '" ++ region ++ "'..." ++ newline.

Definition success_lines (resp : Response) : string :=
  newline ++ "✓ Layer uploaded successfully!" ++ newline ++
  "Layer ARN: " ++ LayerArn resp ++ newline ++
  "Version: " ++ str_Z (Version resp) ++ newline ++
  "Version ARN: " ++ LayerVersionArn resp ++ newline.

(** The ways a call can go, by what the SDK and the disk answer. *)
Inductive upload_case (zp name rg : string) (d : option string) (w : World R)
  : (exn + Response) * World R -> Prop :=
| case_no_client msg r1 :
    sdk_client rg (remote w) = (inl msg, r1) ->
    upload_case zp name rg d w
      (inl (SdkError msg),
       mkWorld (fs w) r1 (stdout w) (stderr w) (trace w ++ [EvClient rg]))
| case_stat_refused c r1 why :
    sdk_client rg (remote w) = (inr c, r1) ->
    fs w !! Path zp = None ->
    stat_refused (Path zp) = Some why ->
    upload_case zp name rg d w
      (inl (refusal_exn why (Path zp)),
       mkWorld (fs w) r1 (stdout w) (stderr w) (trace w ++ [EvClient rg]))
| case_missing c r1 :
    sdk_client rg (remote w) = (inr c, r1) ->
    fs w !! Path zp = None ->
    stat_refused (Path zp) = None ->
    upload_case zp name rg d w
      (inl (FileNotFoundError ("Zip file not found: " ++ zp)),
       mkWorld (fs w) r1 (stdout w) (stderr w) (trace w ++ [EvClient rg]))
| case_not_openable c r1 n e :
    sdk_client rg (remote w) = (inr c, r1) ->
    fs w !! Path zp = Some n ->
    open_refusal (Path zp) n = Some e ->
    upload_case zp name rg d w
      (inl e,
       mkWorld (fs w) r1 (stdout w ++ preamble (Path zp) (st_size n)) (stderr w)
         (trace w ++ [EvClient rg]))
| case_published c r1 n content res r2 :
    sdk_client rg (remote w) = (inr c, r1) ->
    fs w !! Path zp = Some n ->
    readable_bytes n = Some content ->
    sdk_publish_layer_version c (request_of name d content) r1 = (res, r2) ->
    upload_case zp name rg d w
      (from_sdk res,
       mkWorld (fs w) r2
         (stdout w ++ preamble (Path zp) (st_size n)
            ++ uploading_line name rg
            ++ match res with inr resp => success_lines resp | inl _ => "" end)
         (stderr w)
         (trace w ++ [EvClient rg; EvOpen (Path zp);
                      EvRead (Path zp) (length content);
                      EvClose (Path zp);
                      EvPublish c (request_of name d content)])).

(** ** How a call of [upload_lambda_layer] unfolds: lemmas *)

Lemma app_assoc_str (a b c : string) : (a ++ b) ++ c = a ++ (b ++ c).
Proof.
  induction a as [|x a IH]; [reflexivity|].
  change (String x ((a ++ b) ++ c) = String x (a ++ b ++ c)). now rewrite IH.
Qed.

(** Unfolds the monadic operations and the record projections they expose. *)
Ltac step_script :=
  unfold upload_lambda_layer, boto3_client, path_exists, print, stat_st_size,
    with_open_rb, open_rb, finally, read, close, log,
    publish_layer_version, raise, ret, bind;
  cbn [from_sdk negb fs stdout stderr trace remote st_size].

Lemma upload_client_fails zp name rg d w msg r1 :
  sdk_client rg (remote w) = (inl msg, r1) ->
  upload_lambda_layer zp name rg d w =
    (inl (SdkError msg),
     mkWorld (fs w) r1 (stdout w) (stderr w) (trace w ++ [EvClient rg])).
Proof.
  intros Hc. unfold upload_lambda_layer, bind, boto3_client.
  rewrite Hc. reflexivity.
Qed.

Lemma upload_stat_refused zp name rg d w c r1 why :
  sdk_client rg (remote w) = (inr c, r1) ->
  fs w !! Path zp = None ->
  stat_refused (Path zp) = Some why ->
  upload_lambda_layer zp name rg d w =
    (inl (refusal_exn why (Path zp)),
     mkWorld (fs w) r1 (stdout w) (stderr w) (trace w ++ [EvClient rg])).
Proof.
  intros Hc Hf Hs. step_script. rewrite Hc. step_script.
  now rewrite Hf, Hs.
Qed.

Lemma upload_missing zp name rg d w c r1 :
  sdk_client rg (remote w) = (inr c, r1) ->
  fs w !! Path zp = None ->
  stat_refused (Path zp) = None ->
  upload_lambda_layer zp name rg d w =
    (inl (FileNotFoundError ("Zip file not found: " ++ zp)),
     mkWorld (fs w) r1 (stdout w) (stderr w) (trace w ++ [EvClient rg])).
Proof.
  intros Hc Hf Hs. step_script. rewrite Hc. step_script.
  now rewrite Hf, Hs.
Qed.

Lemma upload_not_openable zp name rg d w c r1 n e :
  sdk_client rg (remote w) = (inr c, r1) ->
  fs w !! Path zp = Some n ->
  open_refusal (Path zp) n = Some e ->
  upload_lambda_layer zp name rg d w =
    (inl e,
     mkWorld (fs w) r1 (stdout w ++ preamble (Path zp) (st_size n)) (stderr w)
       (trace w ++ [EvClient rg])).
Proof.
  intros Hc Hf He. step_script. rewrite Hc.
  repeat (progress (step_script; rewrite ?Hf, ?He)).
  unfold preamble. now rewrite !app_assoc_str.
Qed.

Lemma request_built name d content :
  (if truthy d
   then set_Description (default "" d)
          {| LayerName := name; ZipFile := content;
             CompatibleRuntimes := ["python3.14"; "python3.13"; "python3.12"];
             CompatibleArchitectures := ["arm64"]; Description := None |}
   else set_Description ("Lambda layer for " ++ name)
          {| LayerName := name; ZipFile := content;
             CompatibleRuntimes := ["python3.14"; "python3.13"; "python3.12"];
             CompatibleArchitectures := ["arm64"]; Description := None |})
  = request_of name d content.
Proof. unfold request_of, default_description. now destruct (truthy d). Qed.

Lemma readable_bytes_opens p n content :
  readable_bytes n = Some content ->
  open_refusal p n = None /\
  (n = Regular content true \/ exists sz, n = Device sz content true).
Proof.
  destruct n as [c [|]|sz [|]|sz s [|]|sz]; cbn; intros H;
    try discriminate; injection H as <-; eauto.
Qed.

Lemma not_readable_refused p n :
  readable_bytes n = None -> exists e, open_refusal p n = Some e.
Proof.
  destruct n as [c [|]|sz [|]|sz s [|]|sz]; cbn; intros H;
    try discriminate; eauto.
Qed.

Lemma upload_opens zp name rg d w c r1 n content :
  sdk_client rg (remote w) = (inr c, r1) ->
  fs w !! Path zp = Some n ->
  readable_bytes n = Some content ->
  upload_lambda_layer zp name rg d w =
    let req := request_of name d content in
    let tr := (trace w ++ [EvClient rg; EvOpen (Path zp);
                           EvRead (Path zp) (length content);
                           EvClose (Path zp); EvPublish c req])%list in
    let out := stdout w ++ preamble (Path zp) (st_size n)
                 ++ uploading_line name rg in
    match sdk_publish_layer_version c req r1 with
    | (inl msg, r2) => (inl (SdkError msg), mkWorld (fs w) r2 out (stderr w) tr)
    | (inr resp, r2) =>
        (inr resp, mkWorld (fs w) r2 (out ++ success_lines resp) (stderr w) tr)
    end.
Proof.
  intros Hc Hf Hn.
  destruct (readable_bytes_opens (Path zp) n content Hn) as [Hopen Hkind].
  step_script. rewrite Hc.
  repeat (progress (step_script; rewrite ?Hf, ?Hopen)).
  assert (Hread :
    match n with
    | Regular content0 _ | Device _ content0 _ => Some content0
    | _ => None
    end = Some content).
  { destruct Hkind as [->|[sz ->]]; reflexivity. }
  destruct n as [c0 rd|sz rd|sz c0 rd|sz]; try discriminate;
    injection Hread as ->;
    repeat (progress step_script);
    rewrite request_built;
    unfold preamble, uploading_line, success_lines;
    (destruct (sdk_publish_layer_version c (request_of name d content) r1)
       as [[msg|resp] r2]; step_script;
     rewrite <- !(assoc_L (++) (trace w)); cbn [app];
     rewrite !app_assoc_str; reflexivity).
Qed.

Lemma upload_readable zp name rg d w c r1 content :
  sdk_client rg (remote w) = (inr c, r1) ->
  fs w !! Path zp = Some (Regular content true) ->
  upload_lambda_layer zp name rg d w =
    let req := request_of name d content in
    let tr := (trace w ++ [EvClient rg; EvOpen (Path zp);
                           EvRead (Path zp) (length content);
                           EvClose (Path zp); EvPublish c req])%list in
    let out := stdout w ++ preamble (Path zp) (N.of_nat (length content))
                 ++ uploading_line name rg in
    match sdk_publish_layer_version c req r1 with
    | (inl msg, r2) => (inl (SdkError msg), mkWorld (fs w) r2 out (stderr w) tr)
    | (inr resp, r2) =>
        (inr resp, mkWorld (fs w) r2 (out ++ success_lines resp) (stderr w) tr)
    end.
Proof.
  intros Hc Hf.
  exact (upload_opens zp name rg d w c r1 (Regular content true) content
           Hc Hf eq_refl).
Qed.

Lemma append_empty_r (a : string) : a ++ "" = a.
Proof.
  induction a as [|x a IH]; [reflexivity|].
  change (String x (a ++ "") = String x a). now rewrite IH.
Qed.

Lemma upload_cases zp name rg d w :
  upload_case zp name rg d w (upload_lambda_layer zp name rg d w).
Proof.
  destruct (sdk_client rg (remote w)) as [[msg|c] r1] eqn:Hc.
  - rewrite (upload_client_fails _ _ _ _ _ _ _ Hc). now apply case_no_client.
  - destruct (fs w !! Path zp) as [n|] eqn:Hf.
    + destruct (readable_bytes n) as [content|] eqn:Hn.
      * rewrite (upload_opens _ _ _ _ _ _ _ _ _ Hc Hf Hn). cbv zeta.
        destruct (sdk_publish_layer_version c (request_of name d content) r1)
          as [res r2] eqn:Hp.
        pose proof (case_published zp name rg d w c r1 n content res r2
                      Hc Hf Hn Hp) as H.
        destruct res as [msg|resp]; cbn [from_sdk] in H.
        -- now rewrite append_empty_r in H.
        -- now rewrite !app_assoc_str.
      * destruct (not_readable_refused (Path zp) n Hn) as [e He].
        rewrite (upload_not_openable _ _ _ _ _ _ _ _ _ Hc Hf He).
        now apply (case_not_openable _ _ _ _ _ c r1 n e).
    + destruct (stat_refused (Path zp)) as [why|] eqn:Hs.
      * rewrite (upload_stat_refused _ _ _ _ _ _ _ _ Hc Hf Hs).
        now apply (case_stat_refused _ _ _ _ _ c r1 why).
      * rewrite (upload_missing _ _ _ _ _ _ _ Hc Hf Hs).
        now apply (case_missing _ _ _ _ _ c).
Qed.

Lemma run_unfold args files r :
  run args files r =
    match upload_lambda_layer (zip_file args) (layer_name args) (region args)
            (description args) (start files r) with
    | (inr _, w') => (0%Z, w')
    | (inl e, w') =>
        (1%Z, mkWorld (fs w') (remote w') (stdout w')
                (stderr w' ++ ("Error: " ++ exn_str e) ++ newline) (trace w'))
    end.
Proof. reflexivity. Qed.

Lemma upload_keeps_stderr zp name rg d w :
  stderr (upload_lambda_layer zp name rg d w).2 = stderr w.
Proof. now destruct (upload_cases zp name rg d w). Qed.

Lemma upload_keeps_fs zp name rg d w :
  fs (upload_lambda_layer zp name rg d w).2 = fs w.
Proof. now destruct (upload_cases zp name rg d w). Qed.

Lemma run_trace args files r :
  trace (run args files r).2 =
  trace (upload_lambda_layer (zip_file args) (layer_name args) (region args)
           (description args) (start files r)).2.
Proof.
  rewrite run_unfold.
  now destruct (upload_lambda_layer _ _ _ _ _) as [[e|resp] w'].
Qed.


(** Every request that reaches the SDK is the one built from the arguments
    and the bytes read from the node at the path. *)
Lemma calls_of_upload zp name rg d files r c req :
  In (c, req)
     (publish_calls (trace (upload_lambda_layer zp name rg d (start files r)).2)) ->
  exists n content,
    files !! Path zp = Some n /\
    readable_bytes n = Some content /\
    req = request_of name d content.
Proof.
  destruct (upload_cases zp name rg d (start files r)) as
    [msg r1 Hc|c' r1 why Hc Hf Hs|c' r1 Hc Hf Hs|c' r1 n e Hc Hf He
     |c' r1 n content res r2 Hc Hf Hn Hp];
    cbn; try tauto.
  intros [H|[]]. inversion H; subst. eauto.
Qed.

(** Without a node at the path no request is ever issued, whatever the SDK
    answers when the client is built. *)
Lemma no_file_no_publish zp name rg d files r :
  files !! Path zp = None ->
  publish_calls (trace (upload_lambda_layer zp name rg d (start files r)).2) = [].
Proof.
  intros Hf.
  destruct (upload_cases zp name rg d (start files r)) as
    [msg r1 Hc|c' r1 why Hc Hf' Hs|c' r1 Hc Hf' Hs|c' r1 n e Hc Hf' He
     |c' r1 n content res r2 Hc Hf' Hn Hp];
    cbn in *; congruence.
Qed.

(** ** Number formatting: properties *)

Lemma round_half_even_nearest num den :
  0 < den ->
  2 * den * round_half_even num den <= 2 * num + den /\
  2 * num <= 2 * den * round_half_even num den + den.
Proof.
  intros Hden. unfold round_half_even.
  pose proof (N.div_mod num den ltac:(lia)) as Hdm.
  pose proof (N.mod_lt num den ltac:(lia)) as Hlt.
  set (q := num / den) in *. set (m := num mod den) in *.
  destruct (den <? 2 * m) eqn:H1; [apply N.ltb_lt in H1|apply N.ltb_ge in H1];
    cbn [orb].
  - nia.
  - destruct (den =? 2 * m) eqn:H2; [apply N.eqb_eq in H2|apply N.eqb_neq in H2];
      cbn [andb].
    + destruct (N.odd q); nia.
    + nia.
Qed.

Lemma megabytes_exact size :
  size < 2 ^ 53 -> megabytes size = mkFloat size (-20).
Proof.
  intros H. unfold megabytes, truediv_pow2.
  now rewrite (proj2 (N.ltb_lt _ _) H).
Qed.

Lemma hundredths_megabytes size :
  size < 2 ^ 53 ->
  hundredths (megabytes size) = round_half_even (100 * size) (1024 * 1024).
Proof. intros H. now rewrite megabytes_exact. Qed.

(** ** The claims about [upload_lambda_layer] and [main] *)

(** C1 (as amended).  [upload_lambda_layer] never issues more than one
    [publish_layer_version] request, and a request it issues always has the
    two constant lists as [CompatibleRuntimes] and [CompatibleArchitectures],
    whatever the path, layer name, region and description are.  When the
    path names something that can be opened and read and the SDK has handed
    out the client, exactly one request is issued, whether it then succeeds
    or fails: the call's outcome and the SDK state it leaves are those of
    one invocation of the SDK's publish operation on that request. *)
Theorem publish_called_exactly_once zp name rg d files r :
  let call := upload_lambda_layer zp name rg d (start files r) in
  let calls := publish_calls (trace call.2) in
  (length calls <= 1)%nat /\
  (forall c req, In (c, req) calls ->
     CompatibleRuntimes req = ["python3.14"; "python3.13"; "python3.12"] /\
     CompatibleArchitectures req = ["arm64"]) /\
  (forall n content c r1,
     files !! Path zp = Some n ->
     readable_bytes n = Some content ->
     sdk_client rg r = (inr c, r1) ->
     exists req,
       LayerName req = name /\
       ZipFile req = content /\
       CompatibleRuntimes req = ["python3.14"; "python3.13"; "python3.12"] /\
       CompatibleArchitectures req = ["arm64"] /\
       calls = [(c, req)] /\
       forall res r2,
         sdk_publish_layer_version c req r1 = (res, r2) ->
         call.1 = from_sdk res /\ remote call.2 = r2).
Proof.
  intros call calls. split; [|split].
  - subst calls call.
    destruct (upload_cases zp name rg d (start files r)); cbn; lia.
  - intros c req Hin.
    destruct (calls_of_upload _ _ _ _ _ _ _ _ Hin) as (n & content & _ & _ & ->).
    split; reflexivity.
  - intros n content c r1 Hf Hn Hc. subst calls call.
    exists (request_of name d content).
    rewrite (upload_opens zp name rg d (start files r) c r1 n content Hc Hf Hn).
    cbv zeta. repeat split.
    + now destruct (sdk_publish_layer_version c (request_of name d content) r1)
        as [[msg|resp] r2].
    + rewrite H. now destruct res.
    + rewrite H. now destruct res.
Qed.

(** C2 (as amended).  When the path names nothing on disk, no publish
    request is issued and the SDK is left in the state in which building the
    client left it.  If the client was built and the file system reports
    that there is no such file, the call raises [FileNotFoundError] with the
    path as it was given, having done nothing but build the client.  If
    instead the look-up itself is refused, [Path.exists] lets that error
    through. *)
Theorem missing_file_raises_before_publish zp name rg d files r :
  files !! Path zp = None ->
  let call := upload_lambda_layer zp name rg d (start files r) in
  publish_calls (trace call.2) = [] /\
  remote call.2 = (sdk_client rg r).2 /\
  (forall c r1,
     sdk_client rg r = (inr c, r1) ->
     stat_refused (Path zp) = None ->
     call = (inl (FileNotFoundError ("Zip file not found: " ++ zp)),
             mkWorld files r1 "" "" [EvClient rg])) /\
  (forall c r1 why,
     sdk_client rg r = (inr c, r1) ->
     stat_refused (Path zp) = Some why ->
     call = (inl (refusal_exn why (Path zp)),
             mkWorld files r1 "" "" [EvClient rg])).
Proof.
  intros Hf call. split; [|split; [|split]].
  - now apply no_file_no_publish.
  - subst call.
    destruct (upload_cases zp name rg d (start files r)) as
      [m r1 Hc|c r1 why Hc Hf' Hs|c r1 Hc Hf' Hs|c r1 n e Hc Hf' He
       |c r1 n content res r2 Hc Hf' Hn Hp];
      cbn [start fs remote snd] in *; try congruence; now rewrite Hc.
  - intros c r1 Hc Hs. subst call.
    now rewrite (upload_missing zp name rg d (start files r) c r1 Hc Hf Hs).
  - intros c r1 why Hc Hs. subst call.
    now rewrite (upload_stat_refused zp name rg d (start files r) c r1 why Hc Hf Hs).
Qed.

(** C3.  A run whose call raises exits with code 1 and its standard error is
    the line ["Error: " ++ str(e)]; a run whose call returns exits with code 0
    and writes nothing to standard error.  When it is the publish request
    that fails, standard output stops after the "Uploading layer" line: none
    of the success lines is there. *)
Theorem errors_exit_1_success_exits_0 args files r :
  let call := upload_lambda_layer (zip_file args) (layer_name args)
                (region args) (description args) (start files r) in
  (forall e, call.1 = inl e ->
     run args files r =
       (1%Z, mkWorld (fs call.2) (remote call.2) (stdout call.2)
               ("Error: " ++ exn_str e ++ newline) (trace call.2))) /\
  (forall resp, call.1 = inr resp ->
     run args files r = (0%Z, call.2) /\ stderr call.2 = "") /\
  (forall content c r1 msg r2,
     files !! Path (zip_file args) = Some (Regular content true) ->
     sdk_client (region args) r = (inr c, r1) ->
     sdk_publish_layer_version c
       (request_of (layer_name args) (description args) content) r1
       = (inl msg, r2) ->
     (run args files r).1 = 1%Z /\
     stderr (run args files r).2 = "Error: " ++ msg ++ newline /\
     stdout (run args files r).2 =
       preamble (Path (zip_file args)) (N.of_nat (length content))
         ++ uploading_line (layer_name args) (region args)).
Proof.
  intros call.
  pose proof (upload_keeps_stderr (zip_file args) (layer_name args)
                (region args) (description args) (start files r)) as Herr.
  fold call in Herr. cbn [start stderr] in Herr.
  split; [|split].
  - intros e He. rewrite run_unfold. fold call.
    destruct call as [[e'|resp] w']; cbn in He, Herr |- *; [|discriminate].
    injection He as ->. now rewrite Herr.
  - intros resp Hr. split; [|exact Herr].
    rewrite run_unfold. fold call.
    destruct call as [[e'|resp'] w']; cbn in Hr |- *; [discriminate|reflexivity].
  - intros content c r1 msg r2 Hf Hc Hp. rewrite run_unfold.
    rewrite (upload_readable _ _ _ _ (start files r) c r1 content Hc Hf).
    cbv zeta. rewrite Hp. repeat split.
Qed.

(** C4 (as amended).  In every request that reaches the SDK, [Description] is
    ["Lambda layer for " ++ layer_name] when no description was given, and
    the given string when a non-empty description was given. *)
Theorem description_default_or_supplied zp name rg d files r c req :
  In (c, req)
     (publish_calls (trace (upload_lambda_layer zp name rg d (start files r)).2)) ->
  match d with
  | None => Description req = Some ("Lambda layer for " ++ name)
  | Some text => text <> "" -> Description req = Some text
  end.
Proof.
  intros Hin. destruct (calls_of_upload _ _ _ _ _ _ _ _ Hin) as (n & content & _ & _ & ->).
  destruct d as [[|a text]|]; cbn; [tauto|reflexivity|reflexivity].
Qed.


(** C7.  When the call returns, the path names a node that can be opened
    and read, the [ZipFile] of the request is exactly the bytes it holds,
    and the trace is: client built, file opened, read in one go (all its
    bytes), closed, and only then the publish request, with no handle open
    at that point. *)
Theorem zip_read_and_closed_before_publish zp name rg d files r resp w' :
  upload_lambda_layer zp name rg d (start files r) = (inr resp, w') ->
  exists n content c req,
    files !! Path zp = Some n /\
    (n = Regular content true \/ exists sz, n = Device sz content true) /\
    ZipFile req = content /\
    let before := [EvClient rg; EvOpen (Path zp);
                   EvRead (Path zp) (length content); EvClose (Path zp)] in
    trace w' = (before ++ [EvPublish c req])%list /\
    open_handles before [] = [].
Proof.
  intros Hrun.
  destruct (upload_cases zp name rg d (start files r)) as
    [m r1 Hc|c r1 why Hc Hf Hs|c r1 Hc Hf Hs|c r1 n e Hc Hf He
     |c r1 n content res r2 Hc Hf Hn Hp];
    try discriminate.
  destruct res as [msg|resp']; [discriminate|].
  injection Hrun as <- <-.
  exists n, content, c, (request_of name d content).
  split; [exact Hf|].
  split; [exact (proj2 (readable_bytes_opens (Path zp) n content Hn))|].
  repeat split.
  cbn. now rewrite decide_False by (intros H; now apply H).
Qed.

(** C8.  A description that is given but empty is treated as absent: the
    request carries ["Lambda layer for " ++ layer_name]. *)
Theorem empty_description_uses_default zp name rg files r c req :
  In (c, req)
     (publish_calls
        (trace (upload_lambda_layer zp name rg (Some "") (start files r)).2)) ->
  Description req = Some ("Lambda layer for " ++ name) /\
  Description req <> Some "".
Proof.
  intros Hin. destruct (calls_of_upload _ _ _ _ _ _ _ _ Hin) as (n & content & _ & _ & ->).
  split; [reflexivity|]. cbn. discriminate.
Qed.

Lemma errno_msg_not_zip_message code what p zp :
  errno_msg code what p <> "Zip file not found: " ++ zp.
Proof. unfold errno_msg. discriminate. Qed.

(** C9 (as amended).  When the path names something that [open] refuses
    (a directory, a file, directory or device without read permission, a
    socket) and the client was built, the existence check passes: the two
    informational lines are printed, and the call then fails in [open] with
    [IsADirectoryError], [PermissionError] or [OSError], not
    [FileNotFoundError].  The run exits with code 1, its error line is not
    the "Zip file not found" one, and no publish request is issued. *)
Theorem unopenable_path_fails_at_open args files r c r1 n :
  let zp := zip_file args in
  let call := upload_lambda_layer zp (layer_name args) (region args)
                (description args) (start files r) in
  files !! Path zp = Some n ->
  readable_bytes n = None ->
  sdk_client (region args) r = (inr c, r1) ->
  exists e,
    call.1 = inl e /\
    e = match n with
        | Directory _ true => EISDIR (Path zp)
        | Socket _ => ENXIO (Path zp)
        | _ => EACCES (Path zp)
        end /\
    (forall msg, e <> FileNotFoundError msg) /\
    exn_str e <> "Zip file not found: " ++ zp /\
    (run args files r).1 = 1%Z /\
    stderr (run args files r).2 = "Error: " ++ exn_str e ++ newline /\
    stdout (run args files r).2 =
      "Reading zip file: " ++ Path zp ++ newline ++
      file_size_line (st_size n) ++ newline /\
    publish_calls (trace (run args files r).2) = [] /\
    remote (run args files r).2 = r1.
Proof.
  intros zp call Hf Hn Hc. subst call zp.
  destruct (not_readable_refused (Path (zip_file args)) n Hn) as [e He].
  rewrite run_unfold.
  rewrite (upload_not_openable _ _ _ _ (start files r) c r1 n e Hc Hf He).
  exists e. split; [reflexivity|].
  assert (Hkind : e = match n with
                      | Directory _ true => EISDIR (Path (zip_file args))
                      | Socket _ => ENXIO (Path (zip_file args))
                      | _ => EACCES (Path (zip_file args))
                      end).
  { destruct n as [c0 [|]|sz [|]|sz s0 [|]|sz]; cbn in Hn, He;
      try discriminate; congruence. }
  split; [exact Hkind|].
  assert (Hmsg : exists code what,
            exn_str e = errno_msg code what (Path (zip_file args)) /\
            forall msg, e <> FileNotFoundError msg).
  { rewrite Hkind.
    destruct n as [c0 [|]|sz [|]|sz s0 [|]|sz]; cbn in Hn; try discriminate;
      eexists _, _; (split; [reflexivity|discriminate]). }
  destruct Hmsg as (code & what & Hstr & Hnot).
  split; [exact Hnot|].
  split; [rewrite Hstr; apply errno_msg_not_zip_message|].
  cbn [fst snd stdout stderr trace remote start].
  unfold preamble. rewrite !app_assoc_str. repeat split.
Qed.

(** C10.  A run whose call raises [FileNotFoundError] has printed nothing on
    standard output; its only output is the one error line on standard
    error, the path named nothing on disk, and the run exits with code 1. *)
Theorem file_not_found_leaves_stdout_empty args files r msg :
  (upload_lambda_layer (zip_file args) (layer_name args) (region args)
     (description args) (start files r)).1 = inl (FileNotFoundError msg) ->
  stdout (run args files r).2 = "" /\
  stderr (run args files r).2 = "Error: " ++ msg ++ newline /\
  (run args files r).1 = 1%Z /\
  msg = "Zip file not found: " ++ zip_file args /\
  files !! Path (zip_file args) = None.
Proof.
  intros Hrun. rewrite run_unfold.
  destruct (upload_cases (zip_file args) (layer_name args) (region args)
              (description args) (start files r)) as
    [m r1 Hc|c r1 why Hc Hf Hs|c r1 Hc Hf Hs|c r1 n e Hc Hf He
     |c r1 n content res r2 Hc Hf Hn Hp];
    cbn in Hrun.
  - discriminate.
  - destruct why; discriminate.
  - injection Hrun as <-. repeat split. exact Hf.
  - destruct n as [c0 [|]|sz [|]|sz s0 [|]|sz]; cbn in He;
      try discriminate He; injection He as <-; discriminate.
  - destruct res; discriminate.
Qed.


(** ** Further properties of the script *)

(** X1.  The client is built before the path is looked at: when
    [boto3.client] raises, the run exits with code 1 and the SDK's message
    on standard error, prints nothing on standard output, opens no file and
    issues no request, whether or not the zip file exists. *)
Theorem client_error_reported_first args files r msg r1 :
  sdk_client (region args) r = (inl msg, r1) ->
  run args files r =
    (1%Z, mkWorld files r1 "" ("Error: " ++ msg ++ newline)
            [EvClient (region args)]).
Proof.
  intros Hc. rewrite run_unfold.
  now rewrite (upload_client_fails _ _ _ _ (start files r) msg r1 Hc).
Qed.

(** X2.  From line 124 on, that is once the arguments are parsed: when the
    run ends with exit code 0, the client was built, the path names a node
    that was opened and read, exactly one publish request was issued and the
    SDK answered it with a response; nothing was written to standard
    error. *)
Theorem exit_zero_means_published args files r :
  (run args files r).1 = 0%Z ->
  exists c r1 n content resp r2,
    sdk_client (region args) r = (inr c, r1) /\
    files !! Path (zip_file args) = Some n /\
    readable_bytes n = Some content /\
    sdk_publish_layer_version c
      (request_of (layer_name args) (description args) content) r1
      = (inr resp, r2) /\
    publish_calls (trace (run args files r).2) =
      [(c, request_of (layer_name args) (description args) content)] /\
    remote (run args files r).2 = r2 /\
    stderr (run args files r).2 = "".
Proof.
  rewrite run_unfold.
  destruct (upload_cases (zip_file args) (layer_name args) (region args)
              (description args) (start files r)) as
    [m r1 Hc|c r1 why Hc Hf Hs|c r1 Hc Hf Hs|c r1 n e Hc Hf He
     |c r1 n content res r2 Hc Hf Hn Hp];
    cbn [start fs remote fst] in *; try discriminate.
  destruct res as [m|resp]; cbn [from_sdk fst]; [discriminate|].
  intros _. exists c, r1, n, content, resp, r2. repeat split; assumption.
Qed.

(** X3.  A request never goes out with a missing or empty description:
    whatever the [description] argument is, [Description] is present and
    non-empty. *)
Theorem request_description_never_empty zp name rg d files r c req :
  In (c, req)
     (publish_calls (trace (upload_lambda_layer zp name rg d (start files r)).2)) ->
  exists text, Description req = Some text /\ text <> "".
Proof.
  intros Hin. destruct (calls_of_upload _ _ _ _ _ _ _ _ Hin) as (n & content & _ & _ & ->).
  destruct d as [[|a text]|]; cbn; eexists; (split; [reflexivity|discriminate]).
Qed.

(** X4.  Every request carries the [layer_name] argument unchanged as
    [LayerName] and is sent through the very client that the SDK returned
    for the [region] argument. *)
Theorem request_names_layer_and_region zp name rg d files r c req :
  In (c, req)
     (publish_calls (trace (upload_lambda_layer zp name rg d (start files r)).2)) ->
  LayerName req = name /\ exists r1, sdk_client rg r = (inr c, r1).
Proof.
  destruct (upload_cases zp name rg d (start files r)) as
    [m r1 Hc|c' r1 why Hc Hf Hs|c' r1 Hc Hf Hs|c' r1 n e Hc Hf He
     |c' r1 n content res r2 Hc Hf Hn Hp];
    cbn; try tauto.
  intros [H|[]]. inversion H; subst. split; [reflexivity|]. now exists r1.
Qed.

(** X5.  Whatever the outcome of a run, the only path it ever opens is the
    one given on the command line (as pathlib renders it), it opens it at
    most once, and no handle is left open when the process exits. *)
Theorem no_handle_left_open args files r :
  let tr := trace (run args files r).2 in
  open_handles tr [] = [] /\
  (length (opened tr) <= 1)%nat /\
  (forall p, In p (opened tr) -> p = Path (zip_file args)).
Proof.
  cbv zeta. rewrite run_trace.
  destruct (upload_cases (zip_file args) (layer_name args) (region args)
              (description args) (start files r)) as
    [m r1 Hc|c r1 why Hc Hf Hs|c r1 Hc Hf Hs|c r1 n e Hc Hf He
     |c r1 n content res r2 Hc Hf Hn Hp];
    cbn; repeat split; try lia; try tauto.
  - now rewrite decide_False by (intros H; now apply H).
  - intros p [<-|[]]. reflexivity.
Qed.

(** X6.  Publishing is not guarded against repetition: a second run with the
    same arguments, started on the disk and the SDK state that the first run
    left, sends the same request once more. *)
Theorem second_run_publishes_again args files r content c r1 c' r1' :
  let first := run args files r in
  let second := run args (fs first.2) (remote first.2) in
  files !! Path (zip_file args) = Some (Regular content true) ->
  sdk_client (region args) r = (inr c, r1) ->
  sdk_client (region args) (remote first.2) = (inr c', r1') ->
  exists req,
    publish_calls (trace first.2) = [(c, req)] /\
    publish_calls (trace second.2) = [(c', req)] /\
    ZipFile req = content.
Proof.
  intros first second Hf Hc Hc'.
  exists (request_of (layer_name args) (description args) content).
  assert (Hfs : fs first.2 = files).
  { subst first. rewrite run_unfold.
    pose proof (upload_keeps_fs (zip_file args) (layer_name args) (region args)
                  (description args) (start files r)) as H.
    now destruct (upload_lambda_layer _ _ _ _ _) as [[e|resp] w']. }
  split; [|split; [|reflexivity]].
  - subst first. rewrite run_trace.
    rewrite (upload_readable _ _ _ _ (start files r) c r1 content Hc Hf).
    cbv zeta. now destruct (sdk_publish_layer_version _ _ _) as [[m|resp] r2].
  - subst second. rewrite run_trace, Hfs.
    rewrite (upload_readable _ _ _ _ (start files (remote first.2)) c' r1'
               content Hc' Hf).
    cbv zeta. now destruct (sdk_publish_layer_version _ _ _) as [[m|resp] r2].
Qed.

(** X11.  [Path.exists] does not turn every failed look-up into "not
    found": when [stat] on the path is refused (a directory on the way may
    not be searched, the name is too long) and the client was built, the run
    exits with code 1 reporting that error, not the "Zip file not found"
    one; it prints nothing on standard output and issues no request. *)
Theorem refused_lookup_is_reported args files r c r1 why :
  files !! Path (zip_file args) = None ->
  stat_refused (Path (zip_file args)) = Some why ->
  sdk_client (region args) r = (inr c, r1) ->
  let e := match why with
           | SearchDenied => EACCES (Path (zip_file args))
           | NameTooLong => ENAMETOOLONG (Path (zip_file args))
           end in
  run args files r =
    (1%Z, mkWorld files r1 "" ("Error: " ++ exn_str e ++ newline)
            [EvClient (region args)]) /\
  exn_str e <> "Zip file not found: " ++ zip_file args.
Proof.
  intros Hf Hs Hc e. split.
  - rewrite run_unfold.
    rewrite (upload_stat_refused _ _ _ _ (start files r) c r1 why Hc Hf Hs).
    subst e. now destruct why.
  - subst e. destruct why; apply errno_msg_not_zip_message.
Qed.

(** X12.  The only local check is that the path exists: a character device
    or FIFO that may be read is taken for the archive.  What it delivers up
    to end of file is sent as [ZipFile], while the size line shows what
    [stat] reports for the device, not the number of bytes sent; when the
    SDK accepts the request the run exits with code 0. *)
Theorem readable_device_is_published args files r c r1 sz stream resp r2 :
  files !! Path (zip_file args) = Some (Device sz stream true) ->
  sdk_client (region args) r = (inr c, r1) ->
  sdk_publish_layer_version c
    (request_of (layer_name args) (description args) stream) r1
    = (inr resp, r2) ->
  (run args files r).1 = 0%Z /\
  publish_calls (trace (run args files r).2) =
    [(c, request_of (layer_name args) (description args) stream)] /\
  ZipFile (request_of (layer_name args) (description args) stream) = stream /\
  exists rest,
    stdout (run args files r).2 =
      "Reading zip file: " ++ Path (zip_file args) ++ newline ++
      file_size_line sz ++ newline ++ rest.
Proof.
  intros Hf Hc Hp. rewrite run_unfold.
  rewrite (upload_opens _ _ _ _ (start files r) c r1 _ stream Hc Hf eq_refl).
  cbv zeta. rewrite Hp. cbn [fst snd stdout trace start st_size].
  repeat split.
  eexists. unfold preamble. rewrite !app_assoc_str. reflexivity.
Qed.

(** ** Further properties of the file-size line *)


Lemma round_half_even_mono a b den :
  0 < den -> a <= b -> round_half_even a den <= round_half_even b den.
Proof.
  intros Hden Hab.
  pose proof (N.Div0.div_le_mono a b den Hab) as Hq.
  pose proof (N.div_mod a den ltac:(lia)) as Ha.
  pose proof (N.div_mod b den ltac:(lia)) as Hb.
  pose proof (N.mod_lt a den ltac:(lia)) as Hra.
  pose proof (N.mod_lt b den ltac:(lia)) as Hrb.
  unfold round_half_even.
  set (qa := a / den) in *. set (ra := a mod den) in *.
  set (qb := b / den) in *. set (rb := b mod den) in *.
  destruct (N.eq_dec qa qb) as [Heq|Hne].
  - rewrite <- Heq in Hb |- *. assert (ra <= rb) by lia.
    destruct (N.ltb_spec den (2 * ra)), (N.ltb_spec den (2 * rb)),
      (N.eqb_spec den (2 * ra)), (N.eqb_spec den (2 * rb));
      cbn [orb andb]; destruct (N.odd qa); lia.
  - assert (qa + 1 <= qb) by lia.
    destruct ((den <? 2 * ra) || (den =? 2 * ra) && N.odd qa);
    destruct ((den <? 2 * rb) || (den =? 2 * rb) && N.odd qb); lia.
Qed.

(** X7.  An empty file, and any file of at most 5242 bytes, is reported as
    ["File size: 0.00 MB"]; from 5243 bytes on the printed value is at least
    one hundredth. *)
Theorem small_files_print_zero size :
  size < 2 ^ 53 ->
  (hundredths (megabytes size) = 0 <-> size <= 5242) /\
  (size <= 5242 -> file_size_line size = "File size: 0.00 MB").
Proof.
  intros Hsz.
  pose proof (round_half_even_nearest (100 * size) (1024 * 1024) ltac:(lia))
    as [Hlo Hhi].
  assert (Hiff : hundredths (megabytes size) = 0 <-> size <= 5242).
  { rewrite hundredths_megabytes by exact Hsz. split; intros H.
    - rewrite H in Hhi. lia.
    - lia. }
  split; [exact Hiff|].
  intros Hsmall. apply Hiff in Hsmall.
  unfold file_size_line, format_2f. now rewrite Hsmall.
Qed.


(** X9.  The reported size grows with the file: a larger file never prints
    a smaller number. *)
Theorem reported_size_monotone size1 size2 :
  size1 <= size2 -> size2 < 2 ^ 53 ->
  hundredths (megabytes size1) <= hundredths (megabytes size2).
Proof.
  intros Hle Hsz. rewrite !hundredths_megabytes by lia.
  apply round_half_even_mono; lia.
Qed.

(** X10.  ['.2f'] rounds half to even.  A size of an odd number [m] of
    eighths of a mebibyte is exactly half way between two hundredths
    ([12.5 * m] of them); the hundredths printed are then the even one of the
    two neighbours, so 0.125 MB prints as 0.12 and 0.375 MB as 0.38. *)
Theorem half_hundredths_round_to_even m :
  N.odd m = true ->
  131072 * m < 2 ^ 53 ->
  let h := hundredths (megabytes (131072 * m)) in
  N.even h = true /\ (2 * h = 25 * m + 1 \/ 2 * h + 1 = 25 * m).
Proof.
  intros Hodd Hsz h. subst h.
  rewrite hundredths_megabytes by exact Hsz.
  destruct (proj1 (N.odd_spec m) Hodd) as [i Hi].
  set (j := 25 * i + 12).
  assert (Hnum : 100 * (131072 * m) = (2 * j + 1) * 524288) by (subst j; lia).
  assert (Hq : (2 * j + 1) * 524288 / (1024 * 1024) = j).
  { symmetry. apply (N.div_unique _ _ _ 524288); lia. }
  assert (Hr : ((2 * j + 1) * 524288) mod (1024 * 1024) = 524288).
  { symmetry. apply (N.mod_unique _ _ j); lia. }
  assert (Hval : round_half_even (100 * (131072 * m)) (1024 * 1024) =
                 (if N.odd j then j + 1 else j)).
  { rewrite Hnum. unfold round_half_even. rewrite Hq, Hr.
    replace (1024 * 1024 <? 2 * 524288) with false by reflexivity.
    replace (1024 * 1024 =? 2 * 524288) with true by reflexivity.
    reflexivity. }
  rewrite Hval. destruct (N.odd j) eqn:Hj; split.
  - rewrite N.add_1_r, N.even_succ. exact Hj.
  - left. subst j. lia.
  - rewrite <- N.negb_odd, Hj. reflexivity.
  - right. subst j. lia.
Qed.

End Script.
(** ** Concrete runs against the test double *)

Example run_success :
  run Fake.path Fake.quoted Fake.refused (mkArgs "layer.zip" "my-layer" "us-east-1" None)
    Fake.disk 0%Z
  = (0%Z,
     mkWorld Fake.disk 1%Z
       ("Reading zip file: layer.zip" ++ newline ++
        "File size: 0.00 MB" ++ newline ++
        newline ++ "Uploading layer 'my-layer' to region 'us-east-1'..." ++ newline ++
        newline ++ "✓ Layer uploaded successfully!" ++ newline ++
        "Layer ARN: arn:aws:lambda:us-east-1:123456789012:layer:my-layer" ++ newline ++
        "Version: 1" ++ newline ++
        "Version ARN: arn:aws:lambda:us-east-1:123456789012:layer:my-layer:1" ++ newline)
       ""
       [EvClient "us-east-1"; EvOpen "layer.zip"; EvRead "layer.zip" 4;
        EvClose "layer.zip";
        EvPublish (mkClient "us-east-1")
          (mkParams "my-layer" Fake.zip_bytes
             ["python3.14"; "python3.13"; "python3.12"] ["arm64"]
             (Some "Lambda layer for my-layer"))]).
Proof. vm_compute. reflexivity. Qed.

Example run_missing :
  run Fake.path Fake.quoted Fake.refused (mkArgs "nothing.zip" "my-layer" "us-east-1" None)
    Fake.disk 0%Z
  = (1%Z,
     mkWorld Fake.disk 0%Z "" ("Error: Zip file not found: nothing.zip" ++ newline)
       [EvClient "us-east-1"]).
Proof. vm_compute. reflexivity. Qed.

Example run_directory :
  run Fake.path Fake.quoted Fake.refused (mkArgs "build" "my-layer" "us-east-1" None)
    Fake.disk 0%Z
  = (1%Z,
     mkWorld Fake.disk 0%Z
       ("Reading zip file: build" ++ newline ++ "File size: 0.00 MB" ++ newline)
       ("Error: [Errno 21] Is a directory: 'build'" ++ newline)
       [EvClient "us-east-1"]).
Proof. vm_compute. reflexivity. Qed.

(** The client is built before the path is looked at: a region the SDK
    refuses is reported even when the file is missing as well. *)
Example run_refused_region :
  run Fake.path Fake.quoted Fake.refused (mkArgs "nothing.zip" "my-layer" "us east 1" None)
    Fake.disk 0%Z
  = (1%Z,
     mkWorld Fake.disk 0%Z ""
       ("Error: Provided region_name 'us east 1' doesn't match a supported format."
          ++ newline)
       [EvClient "us east 1"]).
Proof. vm_compute. reflexivity. Qed.

Example run_socket :
  run Fake.path Fake.quoted Fake.refused
    (mkArgs "/run/agent.sock" "my-layer" "us-east-1" None) Fake.disk 0%Z
  = (1%Z,
     mkWorld Fake.disk 0%Z
       ("Reading zip file: /run/agent.sock" ++ newline ++
        "File size: 0.00 MB" ++ newline)
       ("Error: [Errno 6] No such device or address: '/run/agent.sock'" ++ newline)
       [EvClient "us-east-1"]).
Proof. vm_compute. reflexivity. Qed.

Example run_refused_lookup :
  run Fake.path Fake.quoted Fake.refused
    (mkArgs "vault/layer.zip" "my-layer" "us-east-1" None) Fake.disk 0%Z
  = (1%Z,
     mkWorld Fake.disk 0%Z ""
       ("Error: [Errno 13] Permission denied: 'vault/layer.zip'" ++ newline)
       [EvClient "us-east-1"]).
Proof. vm_compute. reflexivity. Qed.

Example sizes_formatted :
  file_size_line 0 = "File size: 0.00 MB" /\
  file_size_line 131072 = "File size: 0.12 MB" /\
  file_size_line 1234567 = "File size: 1.18 MB" /\
  file_size_line (10 * 1024 * 1024) = "File size: 10.00 MB".
Proof. repeat split. Qed.

(** ** The theorems at concrete inputs *)

(** C1 as first stated does not hold: the zip file can exist and yet no
    request be issued, because the file may not be read, or because the SDK
    refuses the region before the file is looked at. *)
Lemma existing_zip_without_publish :
  (Fake.disk !! Fake.path "secret.zip" = Some (Regular Fake.zip_bytes false) /\
   publish_calls
     (trace (upload_lambda_layer Fake.path Fake.quoted Fake.refused "secret.zip"
               "my-layer" "us-east-1" None (start Fake.disk 0%Z)).2) = []) /\
  (Fake.disk !! Fake.path "layer.zip" = Some (Regular Fake.zip_bytes true) /\
   publish_calls
     (trace (upload_lambda_layer Fake.path Fake.quoted Fake.refused "layer.zip"
               "my-layer" "us east 1" None (start Fake.disk 0%Z)).2) = []).
Proof. repeat split; vm_compute; reflexivity. Qed.

Lemma publish_called_exactly_once_witness :
  let call := upload_lambda_layer Fake.path Fake.quoted Fake.refused "layer.zip"
                "my-layer" "us-east-1" (Some "numpy and friends")
                (start Fake.disk 0%Z) in
  exists req,
    LayerName req = "my-layer" /\
    ZipFile req = Fake.zip_bytes /\
    CompatibleRuntimes req = ["python3.14"; "python3.13"; "python3.12"] /\
    CompatibleArchitectures req = ["arm64"] /\
    publish_calls (trace call.2) = [(mkClient "us-east-1", req)] /\
    forall res r2,
      sdk_publish_layer_version (mkClient "us-east-1") req 0%Z = (res, r2) ->
      call.1 = from_sdk res /\ remote call.2 = r2.
Proof.
  intros call.
  destruct (publish_called_exactly_once Fake.path Fake.quoted Fake.refused
              "layer.zip" "my-layer" "us-east-1" (Some "numpy and friends")
              Fake.disk 0%Z)
    as (_ & _ & Hone).
  apply (Hone (Regular Fake.zip_bytes true) Fake.zip_bytes
           (mkClient "us-east-1") 0%Z).
  - vm_compute. reflexivity.
  - reflexivity.
  - vm_compute. reflexivity.
Defined.

(** C2 as first stated does not hold: with a region that the SDK refuses
    the missing file is not what is reported, and neither is it when the
    look-up of the path is itself refused. *)
Lemma missing_file_not_reported :
  (Fake.disk !! Fake.path "nothing.zip" = None /\
   (upload_lambda_layer Fake.path Fake.quoted Fake.refused "nothing.zip"
      "my-layer" "us east 1" None (start Fake.disk 0%Z)).1 =
     inl (SdkError
            "Provided region_name 'us east 1' doesn't match a supported format.")) /\
  (Fake.disk !! Fake.path "vault/layer.zip" = None /\
   (upload_lambda_layer Fake.path Fake.quoted Fake.refused "vault/layer.zip"
      "my-layer" "us-east-1" None (start Fake.disk 0%Z)).1 =
     inl (PermissionError "[Errno 13] Permission denied: 'vault/layer.zip'")).
Proof. repeat split; vm_compute; reflexivity. Qed.

Lemma missing_file_raises_before_publish_witness :
  let call := upload_lambda_layer Fake.path Fake.quoted Fake.refused
                "nothing.zip" "my-layer" "us-east-1" None
                (start Fake.disk 0%Z) in
  publish_calls (trace call.2) = [] /\
  remote call.2 = 0%Z /\
  call = (inl (FileNotFoundError ("Zip file not found: " ++ "nothing.zip")),
          mkWorld Fake.disk 0%Z "" "" [EvClient "us-east-1"]).
Proof.
  intros call.
  assert (Hf : Fake.disk !! Fake.path "nothing.zip" = None)
    by (vm_compute; reflexivity).
  pose proof (missing_file_raises_before_publish Fake.path Fake.quoted
                Fake.refused "nothing.zip" "my-layer" "us-east-1" None
                Fake.disk 0%Z Hf)
    as (Hcalls & Hremote & Hraise & _).
  split; [exact Hcalls|]. split; [exact Hremote|].
  apply (Hraise (mkClient "us-east-1") 0%Z); vm_compute; reflexivity.
Defined.

Lemma errors_exit_1_success_exits_0_witness :
  let args := mkArgs "layer.zip" "" "eu-west-1" None in
  let msg := "An error occurred (ValidationException) when calling the PublishLayerVersion operation" in
  (run Fake.path Fake.quoted Fake.refused args Fake.disk 0%Z).1 = 1%Z /\
  stderr (run Fake.path Fake.quoted Fake.refused args Fake.disk 0%Z).2 = "Error: " ++ msg ++ newline /\
  stdout (run Fake.path Fake.quoted Fake.refused args Fake.disk 0%Z).2 =
    preamble (Fake.path "layer.zip") 4 ++ uploading_line "" "eu-west-1".
Proof.
  intros args msg.
  apply (proj2 (proj2 (errors_exit_1_success_exits_0 Fake.path Fake.quoted Fake.refused args
                         Fake.disk 0%Z))
           Fake.zip_bytes (mkClient "eu-west-1") 0%Z msg 0%Z).
  - vm_compute. reflexivity.
  - vm_compute. reflexivity.
  - vm_compute. reflexivity.
Defined.

Lemma description_default_or_supplied_witness :
  let req := request_of "my-layer" (Some "numpy and friends") Fake.zip_bytes in
  let call := upload_lambda_layer Fake.path Fake.quoted Fake.refused "layer.zip" "my-layer"
                "us-east-1" (Some "numpy and friends") (start Fake.disk 0%Z) in
  In (mkClient "us-east-1", req) (publish_calls (trace call.2)) /\
  Description req = Some "numpy and friends".
Proof.
  intros req call.
  assert (Hin : In (mkClient "us-east-1", req) (publish_calls (trace call.2))).
  { vm_compute. left. reflexivity. }
  split; [exact Hin|].
  apply (description_default_or_supplied Fake.path Fake.quoted Fake.refused "layer.zip"
           "my-layer" "us-east-1" (Some "numpy and friends") Fake.disk 0%Z
           (mkClient "us-east-1") req Hin).
  discriminate.
Defined.

(** C4 as first stated does not hold: a description that is supplied but
    empty is not what the request carries. *)
Lemma supplied_empty_description_replaced :
  let call := upload_lambda_layer Fake.path Fake.quoted Fake.refused "layer.zip" "my-layer"
                "us-east-1" (Some "") (start Fake.disk 0%Z) in
  exists c req,
    publish_calls (trace call.2) = [(c, req)] /\
    Description req = Some "Lambda layer for my-layer" /\
    Description req <> Some "".
Proof.
  eexists _, _. split; [vm_compute; reflexivity|].
  split; [reflexivity | discriminate].
Qed.



Lemma zip_read_and_closed_before_publish_witness :
  exists n content c req,
    Fake.disk !! Fake.path "layer.zip" = Some n /\
    (n = Regular content true \/ exists sz, n = Device sz content true) /\
    ZipFile req = content /\
    let before := [EvClient "us-east-1"; EvOpen (Fake.path "layer.zip");
                   EvRead (Fake.path "layer.zip") (length content);
                   EvClose (Fake.path "layer.zip")] in
    trace (upload_lambda_layer Fake.path Fake.quoted Fake.refused "layer.zip"
             "my-layer" "us-east-1" None (start Fake.disk 0%Z)).2
      = (before ++ [EvPublish c req])%list /\
    open_handles before [] = [].
Proof.
  apply (zip_read_and_closed_before_publish Fake.path Fake.quoted Fake.refused
           "layer.zip" "my-layer" "us-east-1" None Fake.disk 0%Z
           (mkResponse (Fake.layer_arn (mkClient "us-east-1") "my-layer") 1
              (Fake.layer_arn (mkClient "us-east-1") "my-layer" ++ ":" ++ str_Z 1))).
  vm_compute. reflexivity.
Defined.

Lemma empty_description_uses_default_witness :
  let req := request_of "my-layer" (Some "") Fake.zip_bytes in
  let call := upload_lambda_layer Fake.path Fake.quoted Fake.refused "layer.zip" "my-layer"
                "us-east-1" (Some "") (start Fake.disk 0%Z) in
  In (mkClient "us-east-1", req) (publish_calls (trace call.2)) /\
  Description req = Some ("Lambda layer for " ++ "my-layer") /\
  Description req <> Some "".
Proof.
  intros req call.
  assert (Hin : In (mkClient "us-east-1", req) (publish_calls (trace call.2))).
  { vm_compute. left. reflexivity. }
  split; [exact Hin|].
  exact (empty_description_uses_default Fake.path Fake.quoted Fake.refused "layer.zip"
           "my-layer" "us-east-1" Fake.disk 0%Z (mkClient "us-east-1") req Hin).
Defined.

(** C9 as first stated does not hold: [/dev/null] exists and is not a
    regular file, yet nothing fails locally; the (empty) stream is
    published and the run exits with code 0.  And with a region that the
    SDK refuses, a directory is never looked at: the run fails before the
    existence check, not when opening. *)
Lemma null_device_is_published :
  (let args := mkArgs "/dev/null" "my-layer" "us-east-1" None in
   Fake.disk !! Fake.path "/dev/null" = Some (Device 0 [] true) /\
   (run Fake.path Fake.quoted Fake.refused args Fake.disk 0%Z).1 = 0%Z /\
   stderr (run Fake.path Fake.quoted Fake.refused args Fake.disk 0%Z).2 = "" /\
   publish_calls
     (trace (run Fake.path Fake.quoted Fake.refused args Fake.disk 0%Z).2) =
     [(mkClient "us-east-1", request_of "my-layer" None [])]) /\
  (let args := mkArgs "build" "my-layer" "us east 1" None in
   Fake.disk !! Fake.path "build" = Some (Directory 4096 true) /\
   run Fake.path Fake.quoted Fake.refused args Fake.disk 0%Z =
     (1%Z,
      mkWorld Fake.disk 0%Z ""
        ("Error: Provided region_name 'us east 1' doesn't match a supported format."
           ++ newline)
        [EvClient "us east 1"])).
Proof. repeat split; vm_compute; reflexivity. Qed.

Lemma unopenable_path_fails_at_open_witness :
  let args := mkArgs "build" "my-layer" "us-east-1" None in
  exists e,
    (upload_lambda_layer Fake.path Fake.quoted Fake.refused "build" "my-layer"
       "us-east-1" None (start Fake.disk 0%Z)).1 = inl e /\
    e = EISDIR Fake.quoted (Fake.path "build") /\
    (forall msg, e <> FileNotFoundError msg) /\
    exn_str e <> "Zip file not found: " ++ "build" /\
    (run Fake.path Fake.quoted Fake.refused args Fake.disk 0%Z).1 = 1%Z /\
    stderr (run Fake.path Fake.quoted Fake.refused args Fake.disk 0%Z).2
      = "Error: " ++ exn_str e ++ newline /\
    stdout (run Fake.path Fake.quoted Fake.refused args Fake.disk 0%Z).2
      = "Reading zip file: " ++ Fake.path "build" ++ newline ++
        file_size_line 4096 ++ newline /\
    publish_calls
      (trace (run Fake.path Fake.quoted Fake.refused args Fake.disk 0%Z).2) = [] /\
    remote (run Fake.path Fake.quoted Fake.refused args Fake.disk 0%Z).2 = 0%Z.
Proof.
  intros args.
  apply (unopenable_path_fails_at_open Fake.path Fake.quoted Fake.refused args
           Fake.disk 0%Z (mkClient "us-east-1") 0%Z (Directory 4096 true)).
  - vm_compute. reflexivity.
  - reflexivity.
  - vm_compute. reflexivity.
Defined.

Lemma file_not_found_leaves_stdout_empty_witness :
  let args := mkArgs "nothing.zip" "my-layer" "us-east-1" (Some "unused") in
  stdout (run Fake.path Fake.quoted Fake.refused args Fake.disk 0%Z).2 = "" /\
  stderr (run Fake.path Fake.quoted Fake.refused args Fake.disk 0%Z).2
    = "Error: " ++ "Zip file not found: nothing.zip" ++ newline /\
  (run Fake.path Fake.quoted Fake.refused args Fake.disk 0%Z).1 = 1%Z /\
  "Zip file not found: nothing.zip" = "Zip file not found: " ++ zip_file args /\
  Fake.disk !! Fake.path (zip_file args) = None.
Proof.
  intros args.
  apply (file_not_found_leaves_stdout_empty Fake.path Fake.quoted Fake.refused args Fake.disk
           0%Z "Zip file not found: nothing.zip").
  vm_compute. reflexivity.
Defined.

(** ** The further properties at concrete inputs *)

Lemma client_error_reported_first_witness :
  run Fake.path Fake.quoted Fake.refused (mkArgs "layer.zip" "my-layer" "us east 1" None)
    Fake.disk 7%Z
  = (1%Z,
     mkWorld Fake.disk 7%Z ""
       ("Error: " ++
        "Provided region_name 'us east 1' doesn't match a supported format."
        ++ newline)
       [EvClient "us east 1"]).
Proof.
  apply (client_error_reported_first Fake.path Fake.quoted Fake.refused
           (mkArgs "layer.zip" "my-layer" "us east 1" None) Fake.disk 7%Z).
  vm_compute. reflexivity.
Defined.

Lemma exit_zero_means_published_witness :
  let args := mkArgs "layer.zip" "my-layer" "us-east-1" None in
  exists c r1 n content resp r2,
    sdk_client "us-east-1" 0%Z = (inr c, r1) /\
    Fake.disk !! Fake.path "layer.zip" = Some n /\
    readable_bytes n = Some content /\
    sdk_publish_layer_version c (request_of "my-layer" None content) r1
      = (inr resp, r2) /\
    publish_calls
      (trace (run Fake.path Fake.quoted Fake.refused args Fake.disk 0%Z).2) =
      [(c, request_of "my-layer" None content)] /\
    remote (run Fake.path Fake.quoted Fake.refused args Fake.disk 0%Z).2 = r2 /\
    stderr (run Fake.path Fake.quoted Fake.refused args Fake.disk 0%Z).2 = "".
Proof.
  intros args.
  apply (exit_zero_means_published Fake.path Fake.quoted Fake.refused args
           Fake.disk 0%Z).
  vm_compute. reflexivity.
Defined.

Lemma request_description_never_empty_witness :
  let req := request_of "my-layer" (Some "") Fake.zip_bytes in
  exists text, Description req = Some text /\ text <> "".
Proof.
  intros req.
  apply (request_description_never_empty Fake.path Fake.quoted Fake.refused "layer.zip"
           "my-layer" "us-east-1" (Some "") Fake.disk 0%Z (mkClient "us-east-1")
           req).
  vm_compute. left. reflexivity.
Defined.

Lemma request_names_layer_and_region_witness :
  let req := request_of "my-layer" None Fake.zip_bytes in
  LayerName req = "my-layer" /\
  exists r1, sdk_client "eu-west-1" 0%Z = (inr (mkClient "eu-west-1"), r1).
Proof.
  intros req.
  apply (request_names_layer_and_region Fake.path Fake.quoted Fake.refused "layer.zip"
           "my-layer" "eu-west-1" None Fake.disk 0%Z (mkClient "eu-west-1") req).
  vm_compute. left. reflexivity.
Defined.

Lemma second_run_publishes_again_witness :
  let args := mkArgs "layer.zip" "my-layer" "us-east-1" None in
  let first := run Fake.path Fake.quoted Fake.refused args Fake.disk 0%Z in
  let second := run Fake.path Fake.quoted Fake.refused args (fs first.2) (remote first.2) in
  exists req,
    publish_calls (trace first.2) = [(mkClient "us-east-1", req)] /\
    publish_calls (trace second.2) = [(mkClient "us-east-1", req)] /\
    ZipFile req = Fake.zip_bytes.
Proof.
  intros args first second.
  apply (second_run_publishes_again Fake.path Fake.quoted Fake.refused args Fake.disk 0%Z
           Fake.zip_bytes (mkClient "us-east-1") 0%Z (mkClient "us-east-1") 1%Z).
  - vm_compute. reflexivity.
  - vm_compute. reflexivity.
  - vm_compute. reflexivity.
Defined.

Lemma small_files_print_zero_witness :
  (hundredths (megabytes 5242) = 0 <-> 5242 <= 5242) /\
  (5242 <= 5242 -> file_size_line 5242 = "File size: 0.00 MB").
Proof. apply (small_files_print_zero 5242). vm_compute. reflexivity. Defined.


Lemma reported_size_monotone_witness :
  hundredths (megabytes 5242) <= hundredths (megabytes 5243).
Proof.
  apply (reported_size_monotone 5242 5243).
  - vm_compute. discriminate.
  - vm_compute. reflexivity.
Defined.

Lemma half_hundredths_round_to_even_witness :
  let h := hundredths (megabytes (131072 * 3)) in
  N.even h = true /\ (2 * h = 25 * 3 + 1 \/ 2 * h + 1 = 25 * 3).
Proof.
  apply (half_hundredths_round_to_even 3).
  - reflexivity.
  - vm_compute. reflexivity.
Defined.

Lemma refused_lookup_is_reported_witness :
  let args := mkArgs "vault/layer.zip" "my-layer" "us-east-1" None in
  run Fake.path Fake.quoted Fake.refused args Fake.disk 0%Z =
    (1%Z,
     mkWorld Fake.disk 0%Z ""
       ("Error: " ++ exn_str (EACCES Fake.quoted (Fake.path "vault/layer.zip"))
          ++ newline)
       [EvClient "us-east-1"]) /\
  exn_str (EACCES Fake.quoted (Fake.path "vault/layer.zip"))
    <> "Zip file not found: " ++ "vault/layer.zip".
Proof.
  intros args.
  apply (refused_lookup_is_reported Fake.path Fake.quoted Fake.refused args
           Fake.disk 0%Z (mkClient "us-east-1") 0%Z SearchDenied).
  - vm_compute. reflexivity.
  - vm_compute. reflexivity.
  - vm_compute. reflexivity.
Defined.

Lemma readable_device_is_published_witness :
  let args := mkArgs "/dev/null" "my-layer" "us-east-1" None in
  (run Fake.path Fake.quoted Fake.refused args Fake.disk 0%Z).1 = 0%Z /\
  publish_calls
    (trace (run Fake.path Fake.quoted Fake.refused args Fake.disk 0%Z).2) =
    [(mkClient "us-east-1", request_of "my-layer" None [])] /\
  ZipFile (request_of "my-layer" None []) = [] /\
  exists rest,
    stdout (run Fake.path Fake.quoted Fake.refused args Fake.disk 0%Z).2 =
      "Reading zip file: " ++ Fake.path "/dev/null" ++ newline ++
      file_size_line 0 ++ newline ++ rest.
Proof.
  intros args.
  apply (readable_device_is_published Fake.path Fake.quoted Fake.refused args
           Fake.disk 0%Z (mkClient "us-east-1") 0%Z 0 []
           (mkResponse (Fake.layer_arn (mkClient "us-east-1") "my-layer") 1
              (Fake.layer_arn (mkClient "us-east-1") "my-layer" ++ ":" ++ str_Z 1))
           1%Z).
  - vm_compute. reflexivity.
  - vm_compute. reflexivity.
  - vm_compute. reflexivity.
Defined.
